(** * chipcap2: the IIO driver of the ChipCap 2 humidity and temperature sensor

    A shallow embedding of [chipcap2.c].  The driver has two entry points
    with behaviour of their own: [chipcap2_read_raw], which the IIO core
    calls for one channel attribute, and [chipcap2_probe], which binds the
    driver to an i2c client.  Both call into the kernel (an SMBus block
    read, the IIO allocation and registration helpers) and
    [chipcap2_read_raw] writes through the two [int *] it is given, so both
    are written in a small state monad whose state holds the two output
    cells and the trace of kernel calls made so far. *)

From Stdlib Require Import ZArith List Lia Bool String.
Import ListNotations.
Local Open Scope Z_scope.

(** ** What the kernel headers provide

    [chipcap2.c] names enumerators and macros of [<linux/iio/iio.h>],
    [<linux/i2c.h>] and [<linux/errno.h>].  The headers are not part of the
    driver, so their values are parameters of the development. *)

Class KernelHeaders : Type := {
  (* enum iio_chan_type *)
  IIO_HUMIDITYRELATIVE : Z;
  IIO_TEMP : Z;
  (* enum iio_chan_info_enum *)
  IIO_CHAN_INFO_RAW : Z;
  IIO_CHAN_INFO_SCALE : Z;
  IIO_CHAN_INFO_OFFSET : Z;
  (* how the IIO core is to read val and val2 *)
  IIO_VAL_INT : Z;
  IIO_VAL_FRACTIONAL : Z;
  (* errno *)
  EIO : Z;
  EINVAL : Z;
  ENOMEM : Z;
  EOPNOTSUPP : Z;
  (* adapter functionality bits *)
  I2C_FUNC_SMBUS_WRITE_BYTE : Z;
  I2C_FUNC_SMBUS_READ_WORD_DATA : Z;
  (* indio_dev->modes *)
  INDIO_DIRECT_MODE : Z
}.

(** The values these names have in the Linux 4.x headers the driver was
    written against. *)
Definition linux_headers : KernelHeaders := {|
  IIO_HUMIDITYRELATIVE := 18;
  IIO_TEMP := 9;
  IIO_CHAN_INFO_RAW := 0;
  IIO_CHAN_INFO_SCALE := 2;
  IIO_CHAN_INFO_OFFSET := 3;
  IIO_VAL_INT := 1;
  IIO_VAL_FRACTIONAL := 10;
  EIO := 5;
  EINVAL := 22;
  ENOMEM := 12;
  EOPNOTSUPP := 95;
  I2C_FUNC_SMBUS_WRITE_BYTE := 0x00040000;
  I2C_FUNC_SMBUS_READ_WORD_DATA := 0x00200000;
  INDIO_DIRECT_MODE := 1
|}.

(** ** Data *)

(** A [u8]. *)
Definition u8 (b : Z) : Prop := 0 <= b <= 255.

(** What one call of [i2c_smbus_read_i2c_block_data] leaves with its
    caller: the return value (a byte count, or a negative errno) and the
    contents of the caller's [u8 buf[5]] afterwards. *)
Record block_read : Type := {
  br_ret : Z;
  br_buf : list Z
}.

(** [struct i2c_adapter], as far as the driver can see it: the
    functionality mask and the transfer routine.  The routine is given the
    number of transfers already made, the command byte and the length. *)
Record i2c_adapter : Type := {
  functionality : Z;
  smbus_xfer : nat -> Z -> Z -> block_read
}.

Record i2c_client : Type := {
  client_name : string;
  adapter : i2c_adapter
}.

Record iio_chan_spec : Type := {
  type : Z;
  info_mask_separate : Z
}.

(** [struct iio_info]; the driver has one, [chipcap2_info], whose
    [read_raw] is [chipcap2_read_raw]. *)
Inductive iio_info : Type :=
| chipcap2_info.

(** [struct iio_dev] with the fields [chipcap2_probe] fills in.  [priv] is
    the private area [iio_priv] returns, which holds the client. *)
Record iio_dev : Type := {
  priv : i2c_client;
  dev_parent : i2c_client;
  name : string;
  modes : Z;
  info : iio_info;
  channels : list iio_chan_spec;
  num_channels : nat
}.

Definition iio_priv (indio_dev : iio_dev) : i2c_client := priv indio_dev.

(** ** Kernel calls and the state the driver runs in *)

Inductive event : Type :=
| ev_check_functionality (func : Z)
| ev_device_alloc
| ev_set_clientdata
| ev_device_register (indio_dev : iio_dev)
| ev_block_read (command length : Z).

Definition is_block_read (e : event) : bool :=
  match e with ev_block_read _ _ => true | _ => false end.

Definition is_check_functionality (e : event) : bool :=
  match e with ev_check_functionality _ => true | _ => false end.

Definition is_device_register (e : event) : bool :=
  match e with ev_device_register _ => true | _ => false end.

Definition is_device_alloc (e : event) : bool :=
  match e with ev_device_alloc => true | _ => false end.

(** [out_val] and [out_val2] are the two [int]s behind the [val] and [val2]
    pointers; [trace] lists the kernel calls made, newest first. *)
Record state : Type := {
  out_val : Z;
  out_val2 : Z;
  trace : list event
}.

Definition bus_transactions (s : state) : nat :=
  List.length (filter is_block_read (trace s)).

Definition M (A : Type) : Type := state -> A * state.

Definition ret {A : Type} (a : A) : M A := fun s => (a, s).

Definition bind {A B : Type} (m : M A) (k : A -> M B) : M B :=
  fun s => let (a, s') := m s in k a s'.

Notation "x <- m ;; k" := (bind m (fun x => k))
  (at level 61, m at next level, right associativity).
Notation "m ;; k" := (bind m (fun _ => k))
  (at level 61, right associativity).

Definition emit (e : event) : M unit :=
  fun s => (tt, {| out_val := out_val s; out_val2 := out_val2 s;
                   trace := e :: trace s |}).

(** [*val = v] *)
Definition store_val (v : Z) : M unit :=
  fun s => (tt, {| out_val := v; out_val2 := out_val2 s; trace := trace s |}).

(** [*val2 = v] *)
Definition store_val2 (v : Z) : M unit :=
  fun s => (tt, {| out_val := out_val s; out_val2 := v; trace := trace s |}).

Definition when (c : bool) (m : M unit) : M unit :=
  if c then m else ret tt.

(** [i2c_smbus_read_i2c_block_data(client, command, length, buf)]: one
    transfer on the client's adapter. *)
Definition i2c_smbus_read_i2c_block_data
    (client : i2c_client) (command length : Z) : M block_read :=
  fun s =>
    let r := smbus_xfer (adapter client) (bus_transactions s) command length in
    (r, {| out_val := out_val s; out_val2 := out_val2 s;
           trace := ev_block_read command length :: trace s |}).

(** [i2c_check_functionality(adap, func)]: all of [func]'s bits are in the
    adapter's mask. *)
Definition i2c_check_functionality (adap : i2c_adapter) (func : Z) : M bool :=
  _ <- emit (ev_check_functionality func) ;;
  ret (Z.land func (functionality adap) =? func).

(** [BIT(nr)] *)
Definition BIT (nr : Z) : Z := Z.shiftl 1 nr.

(** ** The driver *)

Definition CHIPCAP2_DATA_FETCH : Z := 0xdf.

Section Driver.

Context {hdr : KernelHeaders}.

Definition chipcap2_read_raw
    (indio_dev : iio_dev) (chan : iio_chan_spec) (mask : Z) : M Z :=
  let client := iio_priv indio_dev in
  if mask =? IIO_CHAN_INFO_RAW then
    if type chan =? IIO_HUMIDITYRELATIVE then
      r <- i2c_smbus_read_i2c_block_data client CHIPCAP2_DATA_FETCH 2 ;;
      let buf := br_buf r in
      if negb (br_ret r =? 2) then ret (- EIO)
      else
        store_val (Z.shiftl (Z.land (nth 0 buf 0) 0x3F) 8 + nth 1 buf 0) ;;
        ret IIO_VAL_INT
    else if type chan =? IIO_TEMP then
      r <- i2c_smbus_read_i2c_block_data client CHIPCAP2_DATA_FETCH 4 ;;
      let buf := br_buf r in
      if negb (br_ret r =? 4) then ret (- EIO)
      else
        store_val (Z.shiftl (nth 2 buf 0) 6 + Z.quot (nth 3 buf 0) 4) ;;
        ret IIO_VAL_INT
    else ret IIO_VAL_INT
  else if mask =? IIO_CHAN_INFO_SCALE then
    when (type chan =? IIO_HUMIDITYRELATIVE)
         (store_val 100 ;; store_val2 16384) ;;
    when (type chan =? IIO_TEMP)
         (store_val 100 ;; store_val2 9929) ;;
    ret IIO_VAL_FRACTIONAL
  else if mask =? IIO_CHAN_INFO_OFFSET then
    when (type chan =? IIO_TEMP) (store_val (-40)) ;;
    ret IIO_VAL_INT
  else ret (- EINVAL).

Definition chipcap2_channels : list iio_chan_spec :=
  [ {| type := IIO_HUMIDITYRELATIVE;
       info_mask_separate :=
         Z.lor (BIT IIO_CHAN_INFO_RAW) (BIT IIO_CHAN_INFO_SCALE) |};
    {| type := IIO_TEMP;
       info_mask_separate :=
         Z.lor (Z.lor (BIT IIO_CHAN_INFO_RAW) (BIT IIO_CHAN_INFO_SCALE))
               (BIT IIO_CHAN_INFO_OFFSET) |} ].

(** What the IIO core answers during a probe: whether
    [devm_iio_device_alloc] returns a device and what
    [devm_iio_device_register] returns. *)
Record iio_core : Type := {
  alloc_ok : bool;
  register_ret : Z
}.

Definition devm_iio_device_alloc (core : iio_core) : M bool :=
  _ <- emit ev_device_alloc ;; ret (alloc_ok core).

Definition devm_iio_device_register (core : iio_core) (indio_dev : iio_dev)
  : M Z :=
  _ <- emit (ev_device_register indio_dev) ;; ret (register_ret core).

Definition chipcap2_probe (core : iio_core) (client : i2c_client) : M Z :=
  ok <- i2c_check_functionality (adapter client)
          (Z.lor I2C_FUNC_SMBUS_WRITE_BYTE I2C_FUNC_SMBUS_READ_WORD_DATA) ;;
  if negb ok then ret (- EOPNOTSUPP)
  else
    allocated <- devm_iio_device_alloc core ;;
    if negb allocated then ret (- ENOMEM)
    else
      _ <- emit ev_set_clientdata ;;
      let indio_dev :=
        {| priv := client;
           dev_parent := client;
           name := client_name client;
           modes := INDIO_DIRECT_MODE;
           info := chipcap2_info;
           channels := chipcap2_channels;
           num_channels := List.length chipcap2_channels |} in
      devm_iio_device_register core indio_dev.

End Driver.

(** ** Vocabulary of the properties *)

(** C gives the enumerators of one [enum] different values, and the
    [case] labels of [chipcap2_read_raw]'s [switch] must differ for the
    driver to compile. *)
Definition enumerators_distinct {hdr : KernelHeaders} : Prop :=
  IIO_HUMIDITYRELATIVE <> IIO_TEMP /\
  IIO_CHAN_INFO_RAW <> IIO_CHAN_INFO_SCALE /\
  IIO_CHAN_INFO_RAW <> IIO_CHAN_INFO_OFFSET /\
  IIO_CHAN_INFO_SCALE <> IIO_CHAN_INFO_OFFSET.

(** What the adapter behind [indio_dev] answers to a Data Fetch of [length]
    bytes issued in state [s]. *)
Definition next_reply (indio_dev : iio_dev) (s : state) (length : Z)
  : block_read :=
  smbus_xfer (adapter (iio_priv indio_dev)) (bus_transactions s)
             CHIPCAP2_DATA_FETCH length.

(** [s] after one more kernel call [e], the output cells as they were. *)
Definition after_call (e : event) (s : state) : state :=
  {| out_val := out_val s; out_val2 := out_val2 s; trace := e :: trace s |}.

Definition functionality_checks (s : state) : nat :=
  List.length (filter is_check_functionality (trace s)).

Definition device_allocations (s : state) : nat :=
  List.length (filter is_device_alloc (trace s)).

Definition device_registrations (s : state) : nat :=
  List.length (filter is_device_register (trace s)).

(** Two bytes that agree outside the mask [0xC0], the status field of
    byte 0. *)
Definition status_bits_only (a b : Z) : bool :=
  Z.land (Z.lxor a b) 0x3F =? 0.

(** ** Sample devices *)

(** An adapter whose sensor answers every Data Fetch in full with the
    bytes [buf]. *)
Definition adapter_replying (func : Z) (buf : list Z) : i2c_adapter :=
  {| functionality := func;
     smbus_xfer := fun _ _ length => {| br_ret := length; br_buf := buf |} |}.

(** An adapter on which every transfer returns [status]. *)
Definition adapter_failing (func : Z) (status : Z) : i2c_adapter :=
  {| functionality := func;
     smbus_xfer := fun _ _ _ => {| br_ret := status; br_buf := [] |} |}.

Definition cc2d23 (adap : i2c_adapter) : i2c_client :=
  {| client_name := "cc2d23"; adapter := adap |}.

(** The device [chipcap2_probe] registers for [client] under the Linux
    headers. *)
Definition bound_device (client : i2c_client) : iio_dev :=
  {| priv := client;
     dev_parent := client;
     name := client_name client;
     modes := @INDIO_DIRECT_MODE linux_headers;
     info := chipcap2_info;
     channels := @chipcap2_channels linux_headers;
     num_channels := 2 |}.

Definition smbus_func : Z :=
  Z.lor (@I2C_FUNC_SMBUS_WRITE_BYTE linux_headers)
        (@I2C_FUNC_SMBUS_READ_WORD_DATA linux_headers).

(** A reply whose first two bytes encode the humidity code 4660 and whose
    next two encode the temperature code 5122. *)
Definition sample_reply : list Z := [0x12; 0x34; 0x50; 0x08; 0x00].

(** The same reply with both status bits of byte 0 set. *)
Definition sample_reply_stale : list Z := [0xD2; 0x34; 0x50; 0x08; 0x00].

(** [IIO_CHAN_INFO_PROCESSED], the enumerator between [IIO_CHAN_INFO_RAW]
    and [IIO_CHAN_INFO_SCALE]; the driver has no case for it. *)
Definition IIO_CHAN_INFO_PROCESSED : Z := 1.

(** A bound sensor that answers with [sample_reply], one that answers with
    [sample_reply_stale], and one whose transfers all return one byte. *)
Definition sensor : iio_dev :=
  bound_device (cc2d23 (adapter_replying smbus_func sample_reply)).

Definition stale_sensor : iio_dev :=
  bound_device (cc2d23 (adapter_replying smbus_func sample_reply_stale)).

Definition short_sensor : iio_dev :=
  bound_device (cc2d23 (adapter_failing smbus_func 1)).

(** A client on an adapter that can write a byte and nothing else. *)
Definition write_only_client : i2c_client :=
  cc2d23 (adapter_replying (@I2C_FUNC_SMBUS_WRITE_BYTE linux_headers)
                           sample_reply).

(** The caller's cells hold 7 and 8; nothing has been called yet. *)
Definition fresh : state := {| out_val := 7; out_val2 := 8; trace := [] |}.

Definition humidity_chan : iio_chan_spec :=
  nth 0 (@chipcap2_channels linux_headers) {| type := 0; info_mask_separate := 0 |}.

Definition temp_chan : iio_chan_spec :=
  nth 1 (@chipcap2_channels linux_headers) {| type := 0; info_mask_separate := 0 |}.

(** A channel of type [IIO_PRESSURE] (17 in [enum iio_chan_type]), which
    the driver does not have. *)
Definition pressure_chan : iio_chan_spec :=
  {| type := 17; info_mask_separate := BIT (@IIO_CHAN_INFO_RAW linux_headers) |}.

(** ** Vocabulary of the further properties *)

(** The IIO core tells a result from a failure by sign: the [IIO_VAL_]
    codes are not negative, the errno values are positive. *)
Definition return_codes_signed {hdr : KernelHeaders} : Prop :=
  0 <= IIO_VAL_INT /\ 0 <= IIO_VAL_FRACTIONAL /\ 0 < EIO /\ 0 < EINVAL.

(** The enumerators of [enum iio_chan_info_enum] are bit numbers. *)
Definition info_enumerators_nonneg {hdr : KernelHeaders} : Prop :=
  0 <= IIO_CHAN_INFO_RAW /\ 0 <= IIO_CHAN_INFO_SCALE /\
  0 <= IIO_CHAN_INFO_OFFSET.

(** The requests for which [chipcap2_read_raw] has an assignment to
    [*val]: Raw and Scale on a humidity or temperature channel, Offset on
    a temperature channel. *)
Definition handled {hdr : KernelHeaders} (chan : iio_chan_spec) (mask : Z)
  : bool :=
  ((mask =? IIO_CHAN_INFO_RAW) || (mask =? IIO_CHAN_INFO_SCALE))
  && ((type chan =? IIO_HUMIDITYRELATIVE) || (type chan =? IIO_TEMP))
  || (mask =? IIO_CHAN_INFO_OFFSET) && (type chan =? IIO_TEMP).

(** Bit [mask] of the channel's [info_mask_separate]: the attributes the
    IIO core creates for the channel, and so the requests it makes. *)
Definition offered (chan : iio_chan_spec) (mask : Z) : bool :=
  Z.testbit (info_mask_separate chan) mask.

(** [s] with other contents in the two output cells. *)
Definition with_cells (v v2 : Z) (s : state) : state :=
  {| out_val := v; out_val2 := v2; trace := trace s |}.

(** Two bytes that agree outside the mask [0x03]. *)
Definition low_bits_only (a b : Z) : bool :=
  Z.land (Z.lxor a b) 0xFC =? 0.

(** The functionality [chipcap2_probe] asks of the adapter. *)
Definition probe_func {hdr : KernelHeaders} : Z :=
  Z.lor I2C_FUNC_SMBUS_WRITE_BYTE I2C_FUNC_SMBUS_READ_WORD_DATA.

(** Whether the adapter has every bit of it. *)
Definition capable {hdr : KernelHeaders} (client : i2c_client) : bool :=
  Z.land probe_func (functionality (adapter client)) =? probe_func.

(** An adapter whose sensor answers its n-th Data Fetch in full with the
    n-th of [bufs]. *)
Definition adapter_sequence (func : Z) (bufs : list (list Z)) : i2c_adapter :=
  {| functionality := func;
     smbus_xfer := fun n _ length =>
                     {| br_ret := length; br_buf := nth n bufs [] |} |}.

(** A reply with the highest humidity and temperature codes. *)
Definition full_scale_reply : list Z := [0x3F; 0xFF; 0xFF; 0xFF; 0x00].

(** [sample_reply] with the two low bits of byte 3 set. *)
Definition sample_reply_low_bits : list Z := [0x12; 0x34; 0x50; 0x0B; 0x00].

Definition changing_sensor : iio_dev :=
  bound_device
    (cc2d23 (adapter_sequence smbus_func [sample_reply; full_scale_reply])).

Definition low_bits_sensor : iio_dev :=
  bound_device (cc2d23 (adapter_replying smbus_func sample_reply_low_bits)).

Definition capable_client : i2c_client :=
  cc2d23 (adapter_replying smbus_func sample_reply).

(** An IIO core that is out of memory, and one that allocates and
    registers. *)
Definition core_nomem : iio_core := {| alloc_ok := false; register_ret := 0 |}.

Definition core_ok : iio_core := {| alloc_ok := true; register_ret := 0 |}.

(** * Properties *)

Lemma linux_enumerators_distinct : @enumerators_distinct linux_headers.
Proof. unfold enumerators_distinct; cbn; repeat split; discriminate. Qed.

Lemma u8_nth (buf : list Z) (i : nat) : Forall u8 buf -> u8 (nth i buf 0).
Proof.
  intros H. destruct (nth_in_or_default i buf 0) as [Hin | ->].
  - rewrite Forall_forall in H. now apply H.
  - unfold u8; lia.
Qed.

Lemma land_0x3F (b : Z) : Z.land b 0x3F = b mod 64.
Proof. change 0x3F with (Z.ones 6). now rewrite Z.land_ones by lia. Qed.

Lemma humidity_code_range (b0 b1 : Z) :
  u8 b1 -> 0 <= Z.shiftl (Z.land b0 0x3F) 8 + b1 <= 16383.
Proof.
  unfold u8; intros H1. rewrite land_0x3F, Z.shiftl_mul_pow2 by lia.
  change (2 ^ 8) with 256.
  pose proof (Z.mod_pos_bound b0 64 ltac:(lia)). lia.
Qed.

Lemma temperature_code_range (b2 b3 : Z) :
  u8 b2 -> u8 b3 -> 0 <= Z.shiftl b2 6 + Z.quot b3 4 <= 16383.
Proof.
  unfold u8; intros H2 H3. rewrite Z.shiftl_mul_pow2 by lia.
  rewrite Z.quot_div_nonneg by lia. change (2 ^ 6) with 64.
  pose proof (Z.div_pos b3 4 ltac:(lia) ltac:(lia)).
  pose proof (Z.div_lt_upper_bound b3 4 64 ltac:(lia) ltac:(lia)).
  lia.
Qed.

Section Properties.

Context {hdr : KernelHeaders}.

(** *** The paths of [chipcap2_read_raw], one equation each *)

Lemma read_raw_humidity_raw indio_dev chan s :
  type chan = IIO_HUMIDITYRELATIVE ->
  chipcap2_read_raw indio_dev chan IIO_CHAN_INFO_RAW s =
    let r := next_reply indio_dev s 2 in
    let s1 := after_call (ev_block_read CHIPCAP2_DATA_FETCH 2) s in
    if br_ret r =? 2
    then (IIO_VAL_INT,
          {| out_val := Z.shiftl (Z.land (nth 0 (br_buf r) 0) 0x3F) 8
                        + nth 1 (br_buf r) 0;
             out_val2 := out_val2 s1; trace := trace s1 |})
    else (- EIO, s1).
Proof.
  intros Ht. unfold chipcap2_read_raw. rewrite Z.eqb_refl, Ht, Z.eqb_refl.
  unfold bind, i2c_smbus_read_i2c_block_data, next_reply; cbn.
  destruct (_ =? 2); reflexivity.
Qed.

Lemma read_raw_temp_raw indio_dev chan s :
  IIO_HUMIDITYRELATIVE <> IIO_TEMP ->
  type chan = IIO_TEMP ->
  chipcap2_read_raw indio_dev chan IIO_CHAN_INFO_RAW s =
    let r := next_reply indio_dev s 4 in
    let s1 := after_call (ev_block_read CHIPCAP2_DATA_FETCH 4) s in
    if br_ret r =? 4
    then (IIO_VAL_INT,
          {| out_val := Z.shiftl (nth 2 (br_buf r) 0) 6
                        + Z.quot (nth 3 (br_buf r) 0) 4;
             out_val2 := out_val2 s1; trace := trace s1 |})
    else (- EIO, s1).
Proof.
  intros Hd Ht. unfold chipcap2_read_raw. rewrite Z.eqb_refl, Ht.
  replace (IIO_TEMP =? IIO_HUMIDITYRELATIVE) with false
    by (symmetry; apply Z.eqb_neq; congruence).
  rewrite Z.eqb_refl.
  unfold bind, i2c_smbus_read_i2c_block_data, next_reply; cbn.
  destruct (_ =? 4); reflexivity.
Qed.

Lemma read_raw_other_raw indio_dev chan s :
  type chan <> IIO_HUMIDITYRELATIVE ->
  type chan <> IIO_TEMP ->
  chipcap2_read_raw indio_dev chan IIO_CHAN_INFO_RAW s = (IIO_VAL_INT, s).
Proof.
  intros Hh Ht. unfold chipcap2_read_raw. rewrite Z.eqb_refl.
  apply Z.eqb_neq in Hh, Ht. now rewrite Hh, Ht.
Qed.

Lemma read_raw_humidity_scale indio_dev chan s :
  enumerators_distinct ->
  type chan = IIO_HUMIDITYRELATIVE ->
  chipcap2_read_raw indio_dev chan IIO_CHAN_INFO_SCALE s =
    (IIO_VAL_FRACTIONAL,
     {| out_val := 100; out_val2 := 16384; trace := trace s |}).
Proof.
  intros (Hd & Hrs & _) Ht. unfold chipcap2_read_raw.
  replace (IIO_CHAN_INFO_SCALE =? IIO_CHAN_INFO_RAW) with false
    by (symmetry; apply Z.eqb_neq; congruence).
  rewrite Z.eqb_refl, Ht, Z.eqb_refl.
  apply Z.eqb_neq in Hd. now rewrite Hd.
Qed.

Lemma read_raw_temp_scale indio_dev chan s :
  enumerators_distinct ->
  type chan = IIO_TEMP ->
  chipcap2_read_raw indio_dev chan IIO_CHAN_INFO_SCALE s =
    (IIO_VAL_FRACTIONAL,
     {| out_val := 100; out_val2 := 9929; trace := trace s |}).
Proof.
  intros (Hd & Hrs & _) Ht. unfold chipcap2_read_raw.
  replace (IIO_CHAN_INFO_SCALE =? IIO_CHAN_INFO_RAW) with false
    by (symmetry; apply Z.eqb_neq; congruence).
  rewrite Z.eqb_refl, Ht, Z.eqb_refl.
  replace (IIO_TEMP =? IIO_HUMIDITYRELATIVE) with false
    by (symmetry; apply Z.eqb_neq; congruence).
  reflexivity.
Qed.

Lemma read_raw_temp_offset indio_dev chan s :
  enumerators_distinct ->
  type chan = IIO_TEMP ->
  chipcap2_read_raw indio_dev chan IIO_CHAN_INFO_OFFSET s =
    (IIO_VAL_INT,
     {| out_val := -40; out_val2 := out_val2 s; trace := trace s |}).
Proof.
  intros (_ & _ & Hro & Hso) Ht. unfold chipcap2_read_raw.
  replace (IIO_CHAN_INFO_OFFSET =? IIO_CHAN_INFO_RAW) with false
    by (symmetry; apply Z.eqb_neq; congruence).
  replace (IIO_CHAN_INFO_OFFSET =? IIO_CHAN_INFO_SCALE) with false
    by (symmetry; apply Z.eqb_neq; congruence).
  now rewrite Z.eqb_refl, Ht, Z.eqb_refl.
Qed.

Lemma read_raw_default indio_dev chan mask s :
  mask <> IIO_CHAN_INFO_RAW ->
  mask <> IIO_CHAN_INFO_SCALE ->
  mask <> IIO_CHAN_INFO_OFFSET ->
  chipcap2_read_raw indio_dev chan mask s = (- EINVAL, s).
Proof.
  intros Hr Hs Ho. unfold chipcap2_read_raw.
  apply Z.eqb_neq in Hr, Hs, Ho. now rewrite Hr, Hs, Ho.
Qed.

(** Whatever it is asked, [chipcap2_read_raw] leaves the trace as it was
    or adds one Data Fetch to it. *)
Lemma read_raw_trace indio_dev chan mask s :
  let s' := snd (chipcap2_read_raw indio_dev chan mask s) in
  trace s' = trace s \/
  exists length, trace s' = ev_block_read CHIPCAP2_DATA_FETCH length :: trace s.
Proof.
  unfold chipcap2_read_raw, bind, when, i2c_smbus_read_i2c_block_data.
  repeat match goal with
         | |- context [if ?c then _ else _] => destruct c
         end; cbn; eauto.
Qed.

Lemma channels_types chan :
  In chan chipcap2_channels ->
  type chan = IIO_HUMIDITYRELATIVE \/ type chan = IIO_TEMP.
Proof.
  unfold chipcap2_channels. intros [<- | [<- | []]]; cbn; auto.
Qed.

End Properties.

Lemma status_bits_only_spec (a b : Z) :
  status_bits_only a b = true <->
  (forall i, 0 <= i < 6 -> Z.testbit a i = Z.testbit b i).
Proof.
  unfold status_bits_only. rewrite Z.eqb_eq. change 0x3F with (Z.ones 6).
  split.
  - intros H i Hi.
    assert (Hb : Z.testbit (Z.land (Z.lxor a b) (Z.ones 6)) i = false)
      by (rewrite H; apply Z.bits_0).
    rewrite Z.land_spec, Z.lxor_spec, Z.ones_spec_low in Hb by lia.
    destruct (Z.testbit a i), (Z.testbit b i); cbn in Hb; congruence.
  - intros H. apply Z.bits_inj'. intros i Hi.
    rewrite Z.land_spec, Z.lxor_spec, Z.bits_0.
    destruct (Z.lt_ge_cases i 6) as [Hlt | Hge].
    + rewrite (H i) by lia. now rewrite xorb_nilpotent.
    + rewrite Z.ones_spec_high by lia. apply andb_false_r.
Qed.

Lemma status_bits_only_land (a b : Z) :
  status_bits_only a b = true -> Z.land a 0x3F = Z.land b 0x3F.
Proof.
  rewrite status_bits_only_spec. intros H. change 0x3F with (Z.ones 6).
  apply Z.bits_inj'. intros i Hi. rewrite !Z.land_spec.
  destruct (Z.lt_ge_cases i 6) as [Hlt | Hge].
  - now rewrite (H i) by lia.
  - rewrite Z.ones_spec_high by lia. now rewrite !andb_false_r.
Qed.

Lemma nth_1_tl (buf : list Z) : nth 1 buf 0 = nth 0 (tl buf) 0.
Proof. destruct buf; reflexivity. Qed.

(** * The measurement decoder: [chipcap2_read_raw] *)

Section Decoder.

Context {hdr : KernelHeaders}.

(** C1. A humidity Raw request that is answered in full (two bytes, each a
    [u8]) returns [IIO_VAL_INT] and stores
    [((buf[0] & 0x3F) << 8) + buf[1]] in [*val], which is
    [(buf[0] mod 64) * 256 + buf[1]] and lies in 0..16383; [*val2] is left
    alone and the one kernel call made is a Data Fetch of 2 bytes. *)
Theorem humidity_raw_value indio_dev chan s buf :
  type chan = IIO_HUMIDITYRELATIVE ->
  next_reply indio_dev s 2 = {| br_ret := 2; br_buf := buf |} ->
  Forall u8 buf ->
  let run := chipcap2_read_raw indio_dev chan IIO_CHAN_INFO_RAW s in
  fst run = IIO_VAL_INT /\
  out_val (snd run) = Z.shiftl (Z.land (nth 0 buf 0) 0x3F) 8 + nth 1 buf 0 /\
  out_val (snd run) = (nth 0 buf 0 mod 64) * 256 + nth 1 buf 0 /\
  0 <= out_val (snd run) <= 16383 /\
  out_val2 (snd run) = out_val2 s /\
  trace (snd run) = ev_block_read CHIPCAP2_DATA_FETCH 2 :: trace s.
Proof.
  intros Ht Hr Hu run. subst run.
  rewrite read_raw_humidity_raw by assumption. rewrite Hr; cbn -[Z.shiftl Z.land].
  pose proof (humidity_code_range (nth 0 buf 0) (nth 1 buf 0) (u8_nth buf 1 Hu)).
  repeat split; try lia.
  rewrite land_0x3F, Z.shiftl_mul_pow2 by lia. reflexivity.
Qed.

(** C2. A temperature Raw request that is answered in full (four bytes,
    each a [u8]) returns [IIO_VAL_INT] and stores
    [(buf[2] << 6) + buf[3] / 4] in [*val], the quotient taken without its
    remainder; the value is not negative.  The one kernel call made is a
    Data Fetch of 4 bytes. *)
Theorem temperature_raw_value indio_dev chan s buf :
  enumerators_distinct ->
  type chan = IIO_TEMP ->
  next_reply indio_dev s 4 = {| br_ret := 4; br_buf := buf |} ->
  Forall u8 buf ->
  let run := chipcap2_read_raw indio_dev chan IIO_CHAN_INFO_RAW s in
  fst run = IIO_VAL_INT /\
  out_val (snd run) = Z.shiftl (nth 2 buf 0) 6 + nth 3 buf 0 / 4 /\
  out_val (snd run) =
    nth 2 buf 0 * 64 + (nth 3 buf 0 - nth 3 buf 0 mod 4) / 4 /\
  0 <= out_val (snd run) /\
  out_val2 (snd run) = out_val2 s /\
  trace (snd run) = ev_block_read CHIPCAP2_DATA_FETCH 4 :: trace s.
Proof.
  intros (Hd & _) Ht Hr Hu run. subst run.
  rewrite read_raw_temp_raw by assumption. rewrite Hr; cbn -[Z.shiftl Z.quot Z.div Z.modulo Z.mul].
  pose proof (u8_nth buf 2 Hu) as H2. pose proof (u8_nth buf 3 Hu) as H3.
  pose proof (temperature_code_range _ _ H2 H3).
  unfold u8 in H3. rewrite <- Z.quot_div_nonneg by lia.
  repeat split; try lia.
  rewrite Z.shiftl_mul_pow2, Z.quot_div_nonneg by lia.
  change (2 ^ 6) with 64. f_equal.
  rewrite (Z.div_mod (nth 3 buf 0) 4) at 2 by lia.
  replace (4 * (nth 3 buf 0 / 4) + nth 3 buf 0 mod 4 - nth 3 buf 0 mod 4)
    with (nth 3 buf 0 / 4 * 4) by lia.
  now rewrite Z.div_mul by lia.
Qed.

(** C10. The value a temperature Raw request stores is at most 16383: it
    fits in 14 bits. *)
Theorem temperature_raw_14_bits indio_dev chan s buf :
  enumerators_distinct ->
  type chan = IIO_TEMP ->
  next_reply indio_dev s 4 = {| br_ret := 4; br_buf := buf |} ->
  Forall u8 buf ->
  out_val (snd (chipcap2_read_raw indio_dev chan IIO_CHAN_INFO_RAW s)) <= 16383.
Proof.
  intros (Hd & _) Ht Hr Hu.
  rewrite read_raw_temp_raw by assumption. rewrite Hr; cbn -[Z.shiftl Z.quot].
  pose proof (temperature_code_range _ _ (u8_nth buf 2 Hu) (u8_nth buf 3 Hu)).
  lia.
Qed.

(** C9. Two humidity Raw requests whose two-byte replies are the same
    apart from the top two bits of byte 0 return the same code and store
    the same value. *)
Theorem humidity_raw_ignores_status indio_dev indio_dev' chan s s' buf buf' :
  type chan = IIO_HUMIDITYRELATIVE ->
  next_reply indio_dev s 2 = {| br_ret := 2; br_buf := buf |} ->
  next_reply indio_dev' s' 2 = {| br_ret := 2; br_buf := buf' |} ->
  status_bits_only (nth 0 buf 0) (nth 0 buf' 0) = true ->
  tl buf = tl buf' ->
  let run := chipcap2_read_raw indio_dev chan IIO_CHAN_INFO_RAW s in
  let run' := chipcap2_read_raw indio_dev' chan IIO_CHAN_INFO_RAW s' in
  fst run = fst run' /\ out_val (snd run) = out_val (snd run').
Proof.
  intros Ht Hr Hr' Hb Htl run run'. subst run run'.
  rewrite !read_raw_humidity_raw by assumption.
  rewrite Hr, Hr'; cbn -[Z.shiftl Z.land].
  split; [reflexivity |].
  rewrite (status_bits_only_land _ _ Hb), !nth_1_tl, Htl. reflexivity.
Qed.

(** C4. When the adapter answers a humidity or temperature Raw request
    with anything but the count asked for (2 for humidity, 4 for
    temperature), the request returns [-EIO] and both output cells hold
    what they held before. *)
Theorem raw_short_read_eio indio_dev chan s n :
  enumerators_distinct ->
  (type chan = IIO_HUMIDITYRELATIVE /\ n = 2) \/
  (type chan = IIO_TEMP /\ n = 4) ->
  br_ret (next_reply indio_dev s n) <> n ->
  let run := chipcap2_read_raw indio_dev chan IIO_CHAN_INFO_RAW s in
  fst run = - EIO /\
  out_val (snd run) = out_val s /\
  out_val2 (snd run) = out_val2 s /\
  trace (snd run) = ev_block_read CHIPCAP2_DATA_FETCH n :: trace s.
Proof.
  intros (Hd & _) [[Ht ->] | [Ht ->]] Hne run; subst run.
  - rewrite read_raw_humidity_raw by assumption.
    apply Z.eqb_neq in Hne. cbn zeta. rewrite Hne. cbn. auto.
  - rewrite read_raw_temp_raw by assumption.
    apply Z.eqb_neq in Hne. cbn zeta. rewrite Hne. cbn. auto.
Qed.

(** C5. A Scale request makes no kernel call and returns
    [IIO_VAL_FRACTIONAL] with 100 in [*val] and, in [*val2], 16384 on the
    humidity channel and 9929 on the temperature channel, whatever the
    device, the adapter behind it and the cells held before. *)
Theorem scale_constant indio_dev chan s :
  enumerators_distinct ->
  (type chan = IIO_HUMIDITYRELATIVE ->
   chipcap2_read_raw indio_dev chan IIO_CHAN_INFO_SCALE s =
     (IIO_VAL_FRACTIONAL,
      {| out_val := 100; out_val2 := 16384; trace := trace s |})) /\
  (type chan = IIO_TEMP ->
   chipcap2_read_raw indio_dev chan IIO_CHAN_INFO_SCALE s =
     (IIO_VAL_FRACTIONAL,
      {| out_val := 100; out_val2 := 9929; trace := trace s |})).
Proof.
  intros Hd. split; intros Ht.
  - now apply read_raw_humidity_scale.
  - now apply read_raw_temp_scale.
Qed.

(** C6. An Offset request on the temperature channel makes no kernel call
    and returns [IIO_VAL_INT] with -40 in [*val]; a second such request
    right after it returns the same code and leaves the same -40. *)
Theorem temp_offset_constant indio_dev indio_dev' chan chan' s :
  enumerators_distinct ->
  type chan = IIO_TEMP ->
  type chan' = IIO_TEMP ->
  let first := chipcap2_read_raw indio_dev chan IIO_CHAN_INFO_OFFSET s in
  let second :=
    chipcap2_read_raw indio_dev' chan' IIO_CHAN_INFO_OFFSET (snd first) in
  first = (IIO_VAL_INT,
           {| out_val := -40; out_val2 := out_val2 s; trace := trace s |}) /\
  second = first.
Proof.
  intros Hd Ht Ht' first second. subst first second.
  rewrite (read_raw_temp_offset indio_dev chan s Hd Ht). cbn [snd].
  rewrite (read_raw_temp_offset indio_dev' chan' _ Hd Ht'). cbn.
  split; reflexivity.
Qed.

(** C7. A request for anything but Raw, Scale or Offset returns [-EINVAL],
    on every channel and every device, and changes nothing. *)
Theorem unknown_aspect_einval indio_dev chan mask s :
  mask <> IIO_CHAN_INFO_RAW ->
  mask <> IIO_CHAN_INFO_SCALE ->
  mask <> IIO_CHAN_INFO_OFFSET ->
  chipcap2_read_raw indio_dev chan mask s = (- EINVAL, s).
Proof. apply read_raw_default. Qed.

(** C3, as the driver has it.  A Raw request on a channel that is neither
    humidity nor temperature makes no kernel call, writes neither output
    cell and returns [IIO_VAL_INT]; no such channel is in
    [chipcap2_channels], the table the driver registers. *)
Theorem raw_unknown_quantity indio_dev chan s :
  type chan <> IIO_HUMIDITYRELATIVE ->
  type chan <> IIO_TEMP ->
  chipcap2_read_raw indio_dev chan IIO_CHAN_INFO_RAW s = (IIO_VAL_INT, s) /\
  ~ In chan chipcap2_channels.
Proof.
  intros Hh Ht. split.
  - now apply read_raw_other_raw.
  - intros Hin. destruct (channels_types chan Hin); contradiction.
Qed.

End Decoder.

(** * Binding: [chipcap2_probe] *)

Section Probe.

Context {hdr : KernelHeaders}.

Lemma probe_checks_once core client s :
  functionality_checks (snd (chipcap2_probe core client s)) =
  S (functionality_checks s).
Proof.
  unfold chipcap2_probe, i2c_check_functionality, devm_iio_device_alloc,
    devm_iio_device_register, bind, emit, ret, functionality_checks.
  cbn. destruct (_ =? _); cbn; [| reflexivity].
  destruct (alloc_ok core); reflexivity.
Qed.

Lemma read_raw_checks_nothing indio_dev chan mask s :
  functionality_checks (snd (chipcap2_read_raw indio_dev chan mask s)) =
  functionality_checks s.
Proof.
  unfold functionality_checks.
  destruct (read_raw_trace indio_dev chan mask s) as [-> | [n ->]];
    reflexivity.
Qed.

(** C8. On an adapter that lacks a bit of
    [I2C_FUNC_SMBUS_WRITE_BYTE | I2C_FUNC_SMBUS_READ_WORD_DATA],
    [chipcap2_probe] returns [-EOPNOTSUPP] having made one kernel call, the
    functionality check: no device was allocated or registered.  Every
    probe makes that check once, and [chipcap2_read_raw] never makes it. *)
Theorem probe_unsupported_transport core client s :
  let func :=
    Z.lor I2C_FUNC_SMBUS_WRITE_BYTE I2C_FUNC_SMBUS_READ_WORD_DATA in
  Z.land func (functionality (adapter client)) <> func ->
  chipcap2_probe core client s =
    (- EOPNOTSUPP, after_call (ev_check_functionality func) s) /\
  device_allocations (snd (chipcap2_probe core client s)) =
    device_allocations s /\
  device_registrations (snd (chipcap2_probe core client s)) =
    device_registrations s /\
  (forall core' client' s',
     functionality_checks (snd (chipcap2_probe core' client' s')) =
     S (functionality_checks s')) /\
  (forall indio_dev chan mask s',
     functionality_checks (snd (chipcap2_read_raw indio_dev chan mask s')) =
     functionality_checks s').
Proof.
  intros func Hlack.
  assert (Hrun : chipcap2_probe core client s =
                 (- EOPNOTSUPP, after_call (ev_check_functionality func) s)).
  { unfold chipcap2_probe, i2c_check_functionality, bind, emit, ret.
    fold func. apply Z.eqb_neq in Hlack. now rewrite Hlack. }
  rewrite Hrun. repeat split.
  - intros. apply probe_checks_once.
  - intros. apply read_raw_checks_nothing.
Qed.

(** A probe on a capable adapter goes on to allocate and register. *)
Lemma probe_supported_transport core client s :
  let func :=
    Z.lor I2C_FUNC_SMBUS_WRITE_BYTE I2C_FUNC_SMBUS_READ_WORD_DATA in
  Z.land func (functionality (adapter client)) = func ->
  alloc_ok core = true ->
  fst (chipcap2_probe core client s) = register_ret core /\
  device_registrations (snd (chipcap2_probe core client s)) =
    S (device_registrations s).
Proof.
  intros func Hhas Halloc.
  unfold chipcap2_probe, i2c_check_functionality, devm_iio_device_alloc,
    devm_iio_device_register, bind, emit, ret, device_registrations.
  fold func. apply Z.eqb_eq in Hhas. rewrite Hhas, Halloc. cbn. auto.
Qed.

End Probe.

(** * What [chipcap2_read_raw] writes, and when *)

Lemma testbit_BIT (nr i : Z) : 0 <= i -> Z.testbit (BIT nr) i = (i =? nr).
Proof.
  intros Hi. unfold BIT. rewrite Z.shiftl_spec by assumption.
  destruct (Z.eqb_spec i nr) as [-> | Hne].
  - now rewrite Z.sub_diag.
  - destruct (i - nr) as [| q | q] eqn:E; try reflexivity. lia.
Qed.

Ltac read_raw_cases :=
  unfold chipcap2_read_raw, bind, when, i2c_smbus_read_i2c_block_data,
    store_val, store_val2, ret;
  repeat match goal with
         | |- context [if ?c then _ else _] => destruct c eqn:?
         end;
  cbn [fst snd out_val out_val2 trace].

Section Writes.

Context {hdr : KernelHeaders}.

Lemma offered_in_channels chan mask :
  In chan chipcap2_channels ->
  0 <= mask ->
  offered chan mask = true ->
  mask = IIO_CHAN_INFO_RAW \/ mask = IIO_CHAN_INFO_SCALE \/
  (mask = IIO_CHAN_INFO_OFFSET /\ type chan = IIO_TEMP).
Proof.
  unfold chipcap2_channels, offered.
  intros [<- | [<- | []]] Hm; cbn [info_mask_separate type];
    rewrite ?Z.lor_spec, !testbit_BIT by assumption;
    rewrite ?orb_true_iff, !Z.eqb_eq; tauto.
Qed.

Lemma offered_handled chan mask :
  In chan chipcap2_channels ->
  0 <= mask ->
  offered chan mask = true ->
  handled chan mask = true.
Proof.
  intros Hin Hm Ho. unfold handled.
  pose proof (channels_types chan Hin) as Ht.
  destruct (offered_in_channels chan mask Hin Hm Ho) as [-> | [-> | [-> Htemp]]].
  - rewrite Z.eqb_refl. cbn.
    destruct Ht as [-> | ->]; rewrite Z.eqb_refl; cbn;
      now rewrite ?orb_true_r.
  - rewrite Z.eqb_refl, orb_true_r. cbn.
    destruct Ht as [-> | ->]; rewrite Z.eqb_refl; cbn;
      now rewrite ?orb_true_r.
  - rewrite Htemp, !Z.eqb_refl. cbn. now rewrite orb_true_r.
Qed.

Lemma read_raw_codes indio_dev chan mask s :
  let code := fst (chipcap2_read_raw indio_dev chan mask s) in
  code = IIO_VAL_INT \/ code = IIO_VAL_FRACTIONAL \/
  (code = - EIO /\ snd (chipcap2_read_raw indio_dev chan mask s)
                   = after_call (ev_block_read CHIPCAP2_DATA_FETCH
                                   (if type chan =? IIO_HUMIDITYRELATIVE
                                    then 2 else 4)) s) \/
  (code = - EINVAL /\ snd (chipcap2_read_raw indio_dev chan mask s) = s).
Proof.
  read_raw_cases; auto.
Qed.

(** X1. Two requests succeed without an assignment to either output cell:
    Offset on a channel that is not a temperature channel (the humidity
    channel, say) returns [IIO_VAL_INT], and Scale on a channel that is
    neither humidity nor temperature returns [IIO_VAL_FRACTIONAL]; the
    cells hold what the caller left in them and no kernel call is made. *)
Theorem success_without_write indio_dev chan s :
  enumerators_distinct ->
  (type chan <> IIO_TEMP ->
   chipcap2_read_raw indio_dev chan IIO_CHAN_INFO_OFFSET s
   = (IIO_VAL_INT, s)) /\
  (type chan <> IIO_HUMIDITYRELATIVE -> type chan <> IIO_TEMP ->
   chipcap2_read_raw indio_dev chan IIO_CHAN_INFO_SCALE s
   = (IIO_VAL_FRACTIONAL, s)).
Proof.
  intros (_ & Hrs & Hro & Hso). split.
  - intros Ht. unfold chipcap2_read_raw.
    replace (IIO_CHAN_INFO_OFFSET =? IIO_CHAN_INFO_RAW) with false
      by (symmetry; apply Z.eqb_neq; congruence).
    replace (IIO_CHAN_INFO_OFFSET =? IIO_CHAN_INFO_SCALE) with false
      by (symmetry; apply Z.eqb_neq; congruence).
    apply Z.eqb_neq in Ht. now rewrite Z.eqb_refl, Ht.
  - intros Hh Ht. unfold chipcap2_read_raw.
    replace (IIO_CHAN_INFO_SCALE =? IIO_CHAN_INFO_RAW) with false
      by (symmetry; apply Z.eqb_neq; congruence).
    apply Z.eqb_neq in Hh, Ht. now rewrite Z.eqb_refl, Hh, Ht.
Qed.

(** X2. The channel table offers Raw and Scale on both of its channels
    and Offset on the temperature channel alone: bit [mask] of a table
    entry's [info_mask_separate] is set exactly for those requests. *)
Theorem channels_offer chan mask :
  enumerators_distinct ->
  info_enumerators_nonneg ->
  In chan chipcap2_channels ->
  0 <= mask ->
  (offered chan mask = true <->
   mask = IIO_CHAN_INFO_RAW \/ mask = IIO_CHAN_INFO_SCALE \/
   (mask = IIO_CHAN_INFO_OFFSET /\ type chan = IIO_TEMP)).
Proof.
  intros (Hd & _) (Hr & Hs & Ho) Hin Hm. split.
  - now apply offered_in_channels.
  - revert Hin. unfold chipcap2_channels, offered.
    intros [<- | [<- | []]]; cbn [info_mask_separate type];
      rewrite ?Z.lor_spec, !testbit_BIT by assumption;
      rewrite ?orb_true_iff, !Z.eqb_eq; intuition congruence.
Qed.

(** X3. On a channel of the table, a request the table offers never
    hands back what the caller left in [*val]: run from two states that
    differ in the output cells only, it returns the same code and either
    stores the same value, or is a Raw request that failed with [-EIO]
    and stored nothing. *)
Theorem offered_request_defines_val indio_dev chan mask s v v2 :
  enumerators_distinct ->
  In chan chipcap2_channels ->
  0 <= mask ->
  offered chan mask = true ->
  let run := chipcap2_read_raw indio_dev chan mask s in
  let run' := chipcap2_read_raw indio_dev chan mask (with_cells v v2 s) in
  fst run = fst run' /\
  (out_val (snd run) = out_val (snd run') \/
   (mask = IIO_CHAN_INFO_RAW /\ fst run = - EIO /\
    out_val (snd run) = out_val s /\ out_val (snd run') = v)).
Proof.
  intros Hdist Hin Hm Ho run run'. subst run run'.
  assert (Hnext : forall n, next_reply indio_dev (with_cells v v2 s) n
                            = next_reply indio_dev s n) by reflexivity.
  pose proof Hdist as (Hd & _).
  destruct (offered_in_channels chan mask Hin Hm Ho) as [-> | [-> | [-> Htemp]]];
    [destruct (channels_types chan Hin) as [Ht | Ht] ..
    | ].
  - rewrite !read_raw_humidity_raw by assumption. cbn zeta. rewrite Hnext.
    destruct (_ =? 2); cbn -[Z.shiftl Z.land]; auto 6.
  - rewrite !read_raw_temp_raw by assumption. cbn zeta. rewrite Hnext.
    destruct (_ =? 4); cbn -[Z.shiftl Z.quot]; auto 6.
  - rewrite !read_raw_humidity_scale by assumption. cbn; auto.
  - rewrite !read_raw_temp_scale by assumption. cbn; auto.
  - rewrite !read_raw_temp_offset by assumption. cbn; auto.
Qed.

(** X4. A negative return from [chipcap2_read_raw] is [-EIO] or
    [-EINVAL], and comes with both output cells as the caller left
    them. *)
Theorem negative_return_writes_nothing indio_dev chan mask s :
  return_codes_signed ->
  let run := chipcap2_read_raw indio_dev chan mask s in
  fst run < 0 ->
  (fst run = - EIO \/ fst run = - EINVAL) /\
  out_val (snd run) = out_val s /\
  out_val2 (snd run) = out_val2 s.
Proof.
  intros (Hi & Hf & He & Hv) run Hneg. subst run.
  destruct (read_raw_codes indio_dev chan mask s)
    as [H | [H | [[H ->] | [H ->]]]]; cbn; auto; lia.
Qed.

(** X5. Only a Scale request assigns to [*val2]: under any other [mask]
    the cell holds afterwards what it held before. *)
Theorem val2_written_only_by_scale indio_dev chan mask s :
  mask <> IIO_CHAN_INFO_SCALE ->
  out_val2 (snd (chipcap2_read_raw indio_dev chan mask s)) = out_val2 s.
Proof.
  intros Hs. apply Z.eqb_neq in Hs.
  unfold chipcap2_read_raw. rewrite Hs.
  unfold bind, when, i2c_smbus_read_i2c_block_data, store_val, ret.
  repeat match goal with
         | |- context [if ?c then _ else _] => destruct c
         end; reflexivity.
Qed.

(** X6. Readings are not cached.  Of two humidity Raw requests in a row,
    each makes its own Data Fetch, and the second returns the value of
    the adapter's second answer. *)
Theorem raw_reads_not_cached indio_dev chan s buf1 buf2 :
  type chan = IIO_HUMIDITYRELATIVE ->
  let adap := adapter (iio_priv indio_dev) in
  let n := bus_transactions s in
  smbus_xfer adap n CHIPCAP2_DATA_FETCH 2
    = {| br_ret := 2; br_buf := buf1 |} ->
  smbus_xfer adap (S n) CHIPCAP2_DATA_FETCH 2
    = {| br_ret := 2; br_buf := buf2 |} ->
  let first := chipcap2_read_raw indio_dev chan IIO_CHAN_INFO_RAW s in
  let second :=
    chipcap2_read_raw indio_dev chan IIO_CHAN_INFO_RAW (snd first) in
  out_val (snd first)
    = Z.shiftl (Z.land (nth 0 buf1 0) 0x3F) 8 + nth 1 buf1 0 /\
  out_val (snd second)
    = Z.shiftl (Z.land (nth 0 buf2 0) 0x3F) 8 + nth 1 buf2 0 /\
  bus_transactions (snd second) = S (S n).
Proof.
  intros Ht adap n H1 H2 first second. subst first second.
  rewrite (read_raw_humidity_raw indio_dev chan s Ht).
  unfold next_reply. fold adap n. rewrite H1. cbn -[Z.shiftl Z.land].
  rewrite read_raw_humidity_raw by assumption.
  unfold next_reply, bus_transactions.
  cbn [trace filter is_block_read List.length after_call].
  change (List.length (filter is_block_read (trace s))) with n.
  fold adap. rewrite H2. cbn -[Z.shiftl Z.land].
  split; [reflexivity | split; reflexivity].
Qed.

(** X18. [chipcap2_read_raw] uses the bus for Raw requests on a humidity
    or temperature channel and for nothing else: such a request makes one
    Data Fetch (command [0xDF]) of 2 or 4 bytes, whether it then succeeds
    or not, and every other request leaves the trace as it was. *)
Theorem read_raw_transfers indio_dev chan mask s :
  trace (snd (chipcap2_read_raw indio_dev chan mask s))
  = (if (mask =? IIO_CHAN_INFO_RAW) && (type chan =? IIO_HUMIDITYRELATIVE)
     then [ev_block_read CHIPCAP2_DATA_FETCH 2]
     else if (mask =? IIO_CHAN_INFO_RAW) && (type chan =? IIO_TEMP)
     then [ev_block_read CHIPCAP2_DATA_FETCH 4]
     else [])
    ++ trace s.
Proof.
  unfold chipcap2_read_raw, bind, when, i2c_smbus_read_i2c_block_data,
    store_val, store_val2, ret.
  destruct (mask =? IIO_CHAN_INFO_RAW); cbn [andb].
  - destruct (type chan =? IIO_HUMIDITYRELATIVE);
      [| destruct (type chan =? IIO_TEMP)];
      try match goal with
          | |- context [negb ?c] => destruct c
          end; reflexivity.
  - repeat match goal with
           | |- context [if ?c then _ else _] => destruct c
           end; reflexivity.
Qed.

End Writes.

(** * The codes as numbers *)

Lemma u8_high_bits (a i : Z) : u8 a -> 8 <= i -> Z.testbit a i = false.
Proof.
  unfold u8. intros Ha Hi.
  destruct (Z.eq_dec a 0) as [-> | Hnz]; [apply Z.bits_0 |].
  apply Z.bits_above_log2; [lia |].
  assert (Z.log2 a < 8) by (apply Z.log2_lt_pow2; lia). lia.
Qed.

Lemma low_bits_only_quot (a b : Z) :
  u8 a -> u8 b -> low_bits_only a b = true -> Z.quot a 4 = Z.quot b 4.
Proof.
  intros Ha Hb H. unfold low_bits_only in H. apply Z.eqb_eq in H.
  rewrite !Z.quot_div_nonneg by (unfold u8 in *; lia).
  change 4 with (2 ^ 2). rewrite <- !Z.shiftr_div_pow2 by lia.
  apply Z.bits_inj'. intros i Hi. rewrite !Z.shiftr_spec by assumption.
  destruct (Z.lt_ge_cases (i + 2) 8) as [Hlt | Hge].
  - assert (Hbit : Z.testbit (Z.land (Z.lxor a b) 0xFC) (i + 2) = false)
      by (rewrite H; apply Z.bits_0).
    rewrite Z.land_spec, Z.lxor_spec in Hbit.
    assert (Hmask : Z.testbit 0xFC (i + 2) = true).
    { assert (Hc : i = 0 \/ i = 1 \/ i = 2 \/ i = 3 \/ i = 4 \/ i = 5) by lia.
      destruct Hc as [-> | [-> | [-> | [-> | [-> | ->]]]]]; reflexivity. }
    rewrite Hmask, andb_true_r in Hbit.
    destruct (Z.testbit a (i + 2)), (Z.testbit b (i + 2));
      cbn in Hbit; congruence.
  - now rewrite !u8_high_bits by (assumption || lia).
Qed.

Section Codes.

Context {hdr : KernelHeaders}.

(** X7. The humidity code is the big-endian 16-bit word in bytes 0 and 1
    of the reply with its top two bits cleared. *)
Theorem humidity_raw_big_endian indio_dev chan s buf :
  type chan = IIO_HUMIDITYRELATIVE ->
  next_reply indio_dev s 2 = {| br_ret := 2; br_buf := buf |} ->
  Forall u8 buf ->
  out_val (snd (chipcap2_read_raw indio_dev chan IIO_CHAN_INFO_RAW s))
  = (nth 0 buf 0 * 256 + nth 1 buf 0) mod 16384.
Proof.
  intros Ht Hr Hu. rewrite read_raw_humidity_raw by assumption.
  rewrite Hr; cbn -[Z.shiftl Z.land Z.modulo Z.mul].
  pose proof (u8_nth buf 1 Hu) as H1. unfold u8 in H1.
  rewrite land_0x3F, Z.shiftl_mul_pow2 by lia. change (2 ^ 8) with 256.
  pose proof (Z.mod_pos_bound (nth 0 buf 0) 64 ltac:(lia)).
  apply Z.mod_unique with (q := nth 0 buf 0 / 64); [lia |].
  pose proof (Z.div_mod (nth 0 buf 0) 64 ltac:(lia)). lia.
Qed.

(** X8. The temperature code is the big-endian 16-bit word in bytes 2 and
    3 of the reply shifted right by two bits. *)
Theorem temperature_raw_big_endian indio_dev chan s buf :
  enumerators_distinct ->
  type chan = IIO_TEMP ->
  next_reply indio_dev s 4 = {| br_ret := 4; br_buf := buf |} ->
  Forall u8 buf ->
  out_val (snd (chipcap2_read_raw indio_dev chan IIO_CHAN_INFO_RAW s))
  = Z.shiftr (nth 2 buf 0 * 256 + nth 3 buf 0) 2.
Proof.
  intros (Hd & _) Ht Hr Hu. rewrite read_raw_temp_raw by assumption.
  rewrite Hr; cbn -[Z.shiftl Z.shiftr Z.quot Z.mul].
  pose proof (u8_nth buf 3 Hu) as H3. unfold u8 in H3.
  rewrite Z.shiftl_mul_pow2, Z.shiftr_div_pow2, Z.quot_div_nonneg by lia.
  change (2 ^ 6) with 64. change (2 ^ 2) with 4.
  replace (nth 2 buf 0 * 256) with (nth 2 buf 0 * 64 * 4) by lia.
  now rewrite Z.div_add_l by lia.
Qed.

(** X9. The temperature code does not depend on the two low bits of
    byte 3: replies that agree in byte 2 and, outside those two bits, in
    byte 3 store the same value. *)
Theorem temperature_raw_ignores_low_bits
    indio_dev indio_dev' chan s s' buf buf' :
  enumerators_distinct ->
  type chan = IIO_TEMP ->
  next_reply indio_dev s 4 = {| br_ret := 4; br_buf := buf |} ->
  next_reply indio_dev' s' 4 = {| br_ret := 4; br_buf := buf' |} ->
  Forall u8 buf -> Forall u8 buf' ->
  nth 2 buf 0 = nth 2 buf' 0 ->
  low_bits_only (nth 3 buf 0) (nth 3 buf' 0) = true ->
  out_val (snd (chipcap2_read_raw indio_dev chan IIO_CHAN_INFO_RAW s))
  = out_val (snd (chipcap2_read_raw indio_dev' chan IIO_CHAN_INFO_RAW s')).
Proof.
  intros (Hd & _) Ht Hr Hr' Hu Hu' H2 H3.
  rewrite !read_raw_temp_raw by assumption.
  rewrite Hr, Hr'; cbn -[Z.shiftl Z.quot].
  rewrite H2.
  now rewrite (low_bits_only_quot _ _ (u8_nth buf 3 Hu) (u8_nth buf' 3 Hu') H3).
Qed.

(** X10. The two fields of the humidity code do not overlap: the stored
    value gives back the low six bits of byte 0 as its quotient by 256
    and byte 1 as the remainder. *)
Theorem humidity_raw_fields indio_dev chan s buf :
  type chan = IIO_HUMIDITYRELATIVE ->
  next_reply indio_dev s 2 = {| br_ret := 2; br_buf := buf |} ->
  Forall u8 buf ->
  let v := out_val (snd (chipcap2_read_raw indio_dev chan IIO_CHAN_INFO_RAW s)) in
  v / 256 = Z.land (nth 0 buf 0) 0x3F /\ v mod 256 = nth 1 buf 0.
Proof.
  intros Ht Hr Hu v. subst v. rewrite read_raw_humidity_raw by assumption.
  rewrite Hr; cbn -[Z.shiftl Z.land Z.modulo Z.div].
  pose proof (u8_nth buf 1 Hu) as H1. unfold u8 in H1.
  rewrite Z.shiftl_mul_pow2 by lia. change (2 ^ 8) with 256.
  split.
  - rewrite Z.div_add_l, Z.div_small by lia. lia.
  - rewrite Z.add_comm, Z.mod_add, Z.mod_small by lia. reflexivity.
Qed.

(** X11. The two fields of the temperature code do not overlap: the
    stored value gives back byte 2 as its quotient by 64 and the high six
    bits of byte 3 as the remainder. *)
Theorem temperature_raw_fields indio_dev chan s buf :
  enumerators_distinct ->
  type chan = IIO_TEMP ->
  next_reply indio_dev s 4 = {| br_ret := 4; br_buf := buf |} ->
  Forall u8 buf ->
  let v := out_val (snd (chipcap2_read_raw indio_dev chan IIO_CHAN_INFO_RAW s)) in
  v / 64 = nth 2 buf 0 /\ v mod 64 = Z.shiftr (nth 3 buf 0) 2.
Proof.
  intros (Hd & _) Ht Hr Hu v. subst v. rewrite read_raw_temp_raw by assumption.
  rewrite Hr; cbn -[Z.shiftl Z.shiftr Z.quot Z.modulo Z.div].
  pose proof (u8_nth buf 3 Hu) as H3. unfold u8 in H3.
  rewrite Z.shiftl_mul_pow2, Z.shiftr_div_pow2, Z.quot_div_nonneg by lia.
  change (2 ^ 6) with 64. change (2 ^ 2) with 4.
  pose proof (Z.div_pos (nth 3 buf 0) 4 ltac:(lia) ltac:(lia)).
  pose proof (Z.div_lt_upper_bound (nth 3 buf 0) 4 64 ltac:(lia) ltac:(lia)).
  split.
  - rewrite Z.div_add_l, Z.div_small by lia. lia.
  - rewrite Z.add_comm, Z.mod_add, Z.mod_small by lia. reflexivity.
Qed.

(** X12. Every 14-bit code can be read: for each [v] in 0..16383 there is
    a reply of [u8]s from which a humidity Raw request stores [v] and a
    temperature Raw request stores [v]. *)
Theorem every_code_reachable (v : Z) :
  enumerators_distinct ->
  0 <= v <= 16383 ->
  exists buf,
    Forall u8 buf /\
    forall indio_dev chan s,
      (type chan = IIO_HUMIDITYRELATIVE ->
       next_reply indio_dev s 2 = {| br_ret := 2; br_buf := buf |} ->
       chipcap2_read_raw indio_dev chan IIO_CHAN_INFO_RAW s
       = (IIO_VAL_INT,
          with_cells v (out_val2 s)
            (after_call (ev_block_read CHIPCAP2_DATA_FETCH 2) s))) /\
      (type chan = IIO_TEMP ->
       next_reply indio_dev s 4 = {| br_ret := 4; br_buf := buf |} ->
       chipcap2_read_raw indio_dev chan IIO_CHAN_INFO_RAW s
       = (IIO_VAL_INT,
          with_cells v (out_val2 s)
            (after_call (ev_block_read CHIPCAP2_DATA_FETCH 4) s))).
Proof.
  intros (Hd & _) Hv.
  exists [v / 256; v mod 256; v / 64; (v mod 64) * 4; 0].
  pose proof (Z.mod_pos_bound v 256 ltac:(lia)).
  pose proof (Z.mod_pos_bound v 64 ltac:(lia)).
  pose proof (Z.div_pos v 256 ltac:(lia) ltac:(lia)).
  pose proof (Z.div_pos v 64 ltac:(lia) ltac:(lia)).
  pose proof (Z.div_lt_upper_bound v 256 64 ltac:(lia) ltac:(lia)).
  pose proof (Z.div_lt_upper_bound v 64 256 ltac:(lia) ltac:(lia)).
  split.
  - repeat constructor; unfold u8; lia.
  - intros indio_dev chan s. split; intros Ht Hr.
    + rewrite read_raw_humidity_raw by assumption.
      rewrite Hr; cbn -[Z.shiftl Z.land Z.modulo Z.div].
      unfold with_cells, after_call; cbn -[Z.shiftl Z.land Z.modulo Z.div].
      do 2 f_equal.
      rewrite land_0x3F, Z.shiftl_mul_pow2, (Z.mod_small (v / 256)) by lia.
      change (2 ^ 8) with 256.
      pose proof (Z.div_mod v 256 ltac:(lia)). lia.
    + rewrite read_raw_temp_raw by assumption.
      rewrite Hr; cbn -[Z.shiftl Z.quot Z.modulo Z.div Z.mul].
      unfold with_cells, after_call; cbn -[Z.shiftl Z.quot Z.modulo Z.div Z.mul].
      do 2 f_equal.
      rewrite Z.shiftl_mul_pow2, Z.quot_div_nonneg, Z.div_mul by lia.
      change (2 ^ 6) with 64.
      pose proof (Z.div_mod v 64 ltac:(lia)). lia.
Qed.

(** X13. Read as the IIO core reads them, a humidity Raw value and the
    humidity Scale that follows it give a relative humidity from 0 up to,
    but not reaching, 100 per cent: with [num / den] the scale,
    [0 <= raw * num < 100 * den]. *)
Theorem humidity_percent_range indio_dev chan s buf :
  enumerators_distinct ->
  type chan = IIO_HUMIDITYRELATIVE ->
  next_reply indio_dev s 2 = {| br_ret := 2; br_buf := buf |} ->
  Forall u8 buf ->
  let raw := chipcap2_read_raw indio_dev chan IIO_CHAN_INFO_RAW s in
  let scale := chipcap2_read_raw indio_dev chan IIO_CHAN_INFO_SCALE (snd raw) in
  let num := out_val (snd scale) in
  let den := out_val2 (snd scale) in
  0 < den /\ 0 <= out_val (snd raw) * num < 100 * den.
Proof.
  intros Hdist Ht Hr Hu raw scale num den. subst num den scale raw.
  rewrite (read_raw_humidity_scale _ _ _ Hdist Ht).
  rewrite read_raw_humidity_raw by assumption.
  rewrite Hr; cbn -[Z.shiftl Z.land Z.mul].
  pose proof (humidity_code_range (nth 0 buf 0) (nth 1 buf 0) (u8_nth buf 1 Hu)).
  lia.
Qed.

(** X14. Read as the IIO core reads them, a temperature Raw value with
    the Scale and Offset that follow it give a temperature from -40 to
    just above 125 degrees: with [num / den] the scale,
    [-40 * den <= raw * num + offset * den <= 125 * den + 15]. *)
Theorem temperature_celsius_range indio_dev chan s buf :
  enumerators_distinct ->
  type chan = IIO_TEMP ->
  next_reply indio_dev s 4 = {| br_ret := 4; br_buf := buf |} ->
  Forall u8 buf ->
  let raw := chipcap2_read_raw indio_dev chan IIO_CHAN_INFO_RAW s in
  let scale := chipcap2_read_raw indio_dev chan IIO_CHAN_INFO_SCALE (snd raw) in
  let offset :=
    chipcap2_read_raw indio_dev chan IIO_CHAN_INFO_OFFSET (snd scale) in
  let num := out_val (snd scale) in
  let den := out_val2 (snd scale) in
  0 < den /\
  -40 * den <= out_val (snd raw) * num + out_val (snd offset) * den
            <= 125 * den + 15.
Proof.
  intros Hdist Ht Hr Hu raw scale offset num den.
  subst num den offset scale raw.
  rewrite (read_raw_temp_offset _ _ _ Hdist Ht).
  rewrite (read_raw_temp_scale _ _ _ Hdist Ht).
  destruct Hdist as (Hd & _).
  rewrite read_raw_temp_raw by assumption.
  rewrite Hr; cbn -[Z.shiftl Z.quot Z.mul].
  pose proof (temperature_code_range _ _ (u8_nth buf 2 Hu) (u8_nth buf 3 Hu)).
  lia.
Qed.

End Codes.

(** * The paths of [chipcap2_probe] *)

Section ProbePaths.

Context {hdr : KernelHeaders}.

(** X15. On a capable adapter, when [devm_iio_device_alloc] returns no
    device, [chipcap2_probe] returns [-ENOMEM] after the functionality
    check and the allocation attempt: the client data is not set and
    nothing is registered. *)
Theorem probe_enomem core client s :
  capable client = true ->
  alloc_ok core = false ->
  chipcap2_probe core client s
  = (- ENOMEM,
     after_call ev_device_alloc
       (after_call (ev_check_functionality probe_func) s)) /\
  device_registrations (snd (chipcap2_probe core client s))
  = device_registrations s.
Proof.
  intros Hcap Halloc. unfold capable in Hcap. fold probe_func in Hcap.
  assert (Hrun : chipcap2_probe core client s
                 = (- ENOMEM,
                    after_call ev_device_alloc
                      (after_call (ev_check_functionality probe_func) s))).
  { unfold chipcap2_probe, i2c_check_functionality, devm_iio_device_alloc,
      bind, emit, ret. fold probe_func. now rewrite Hcap, Halloc. }
  rewrite Hrun. split; reflexivity.
Qed.

(** X16. On a capable adapter, when a device is allocated,
    [chipcap2_probe] returns what [devm_iio_device_register] returns,
    having made four kernel calls: the check, the allocation, setting the
    client data and the registration.  The device handed to the
    registration is named after the client, runs in direct mode, carries
    the two channels of [chipcap2_channels] and keeps the client in its
    private area, so that its reads go to the client's adapter. *)
Theorem probe_registers_device core client s :
  capable client = true ->
  alloc_ok core = true ->
  exists indio_dev,
    chipcap2_probe core client s
    = (register_ret core,
       after_call (ev_device_register indio_dev)
         (after_call ev_set_clientdata
            (after_call ev_device_alloc
               (after_call (ev_check_functionality probe_func) s)))) /\
    iio_priv indio_dev = client /\
    name indio_dev = client_name client /\
    modes indio_dev = INDIO_DIRECT_MODE /\
    channels indio_dev = chipcap2_channels /\
    num_channels indio_dev = 2%nat /\
    (forall s' length,
       next_reply indio_dev s' length
       = smbus_xfer (adapter client) (bus_transactions s')
                    CHIPCAP2_DATA_FETCH length).
Proof.
  intros Hcap Halloc. unfold capable in Hcap. fold probe_func in Hcap.
  eexists. split.
  - unfold chipcap2_probe, i2c_check_functionality, devm_iio_device_alloc,
      devm_iio_device_register, bind, emit, ret.
    fold probe_func. rewrite Hcap, Halloc. cbn. reflexivity.
  - cbn. repeat split.
Qed.

(** X17. Whatever the adapter and the IIO core do, [chipcap2_probe] makes
    no bus transfer, attempts an allocation only on a capable adapter and
    a registration only after an allocation that gave a device, each at
    most once; its return value is [-EOPNOTSUPP], [-ENOMEM] or that of
    the registration accordingly. *)
Theorem probe_outcomes core client s :
  let run := chipcap2_probe core client s in
  bus_transactions (snd run) = bus_transactions s /\
  device_allocations (snd run)
  = (device_allocations s + (if capable client then 1 else 0))%nat /\
  device_registrations (snd run)
  = (device_registrations s
     + (if capable client && alloc_ok core then 1 else 0))%nat /\
  fst run = (if capable client
             then if alloc_ok core then register_ret core else - ENOMEM
             else - EOPNOTSUPP).
Proof.
  unfold chipcap2_probe, i2c_check_functionality, devm_iio_device_alloc,
    devm_iio_device_register, bind, emit, ret, capable,
    bus_transactions, device_allocations, device_registrations.
  fold probe_func. cbn [out_val out_val2 trace].
  destruct (Z.land probe_func (functionality (adapter client)) =? probe_func);
    cbn [negb]; [destruct (alloc_ok core) |]; cbn; repeat split; lia.
Qed.

End ProbePaths.

(** * The properties at work under the Linux headers *)

Section Linux.

#[local] Existing Instance linux_headers.

Lemma sample_reply_u8 : Forall u8 sample_reply.
Proof. repeat constructor; unfold u8; lia. Defined.

Lemma humidity_raw_value_witness :
  type humidity_chan = IIO_HUMIDITYRELATIVE /\
  next_reply sensor fresh 2 = {| br_ret := 2; br_buf := sample_reply |} /\
  Forall u8 sample_reply /\
  fst (chipcap2_read_raw sensor humidity_chan IIO_CHAN_INFO_RAW fresh) = 1 /\
  out_val (snd (chipcap2_read_raw sensor humidity_chan IIO_CHAN_INFO_RAW fresh))
    = 4660.
Proof.
  destruct (humidity_raw_value sensor humidity_chan fresh sample_reply
              eq_refl eq_refl sample_reply_u8) as (Hc & Hv & _).
  exact (conj eq_refl (conj eq_refl (conj sample_reply_u8 (conj Hc Hv)))).
Defined.

Lemma temperature_raw_value_witness :
  enumerators_distinct /\
  type temp_chan = IIO_TEMP /\
  next_reply sensor fresh 4 = {| br_ret := 4; br_buf := sample_reply |} /\
  Forall u8 sample_reply /\
  fst (chipcap2_read_raw sensor temp_chan IIO_CHAN_INFO_RAW fresh) = 1 /\
  out_val (snd (chipcap2_read_raw sensor temp_chan IIO_CHAN_INFO_RAW fresh))
    = 5122.
Proof.
  destruct (temperature_raw_value sensor temp_chan fresh sample_reply
              linux_enumerators_distinct eq_refl eq_refl sample_reply_u8)
    as (Hc & Hv & _).
  exact (conj linux_enumerators_distinct
           (conj eq_refl (conj eq_refl (conj sample_reply_u8 (conj Hc Hv))))).
Defined.

Lemma temperature_raw_14_bits_witness :
  enumerators_distinct /\
  type temp_chan = IIO_TEMP /\
  next_reply sensor fresh 4 = {| br_ret := 4; br_buf := sample_reply |} /\
  Forall u8 sample_reply /\
  out_val (snd (chipcap2_read_raw sensor temp_chan IIO_CHAN_INFO_RAW fresh))
    <= 16383.
Proof.
  refine (conj linux_enumerators_distinct
            (conj eq_refl (conj eq_refl (conj sample_reply_u8 _)))).
  exact (temperature_raw_14_bits sensor temp_chan fresh sample_reply
           linux_enumerators_distinct eq_refl eq_refl sample_reply_u8).
Defined.

Lemma humidity_raw_ignores_status_witness :
  type humidity_chan = IIO_HUMIDITYRELATIVE /\
  next_reply sensor fresh 2 = {| br_ret := 2; br_buf := sample_reply |} /\
  next_reply stale_sensor fresh 2
    = {| br_ret := 2; br_buf := sample_reply_stale |} /\
  status_bits_only (nth 0 sample_reply 0) (nth 0 sample_reply_stale 0) = true /\
  tl sample_reply = tl sample_reply_stale /\
  out_val (snd (chipcap2_read_raw sensor humidity_chan IIO_CHAN_INFO_RAW fresh))
  = out_val (snd (chipcap2_read_raw stale_sensor humidity_chan
                    IIO_CHAN_INFO_RAW fresh)).
Proof.
  refine (conj eq_refl (conj eq_refl (conj eq_refl
            (conj eq_refl (conj eq_refl _))))).
  exact (proj2 (humidity_raw_ignores_status sensor stale_sensor humidity_chan
                  fresh fresh sample_reply sample_reply_stale
                  eq_refl eq_refl eq_refl eq_refl eq_refl)).
Defined.

Lemma raw_short_read_eio_witness :
  enumerators_distinct /\
  type temp_chan = IIO_TEMP /\
  br_ret (next_reply short_sensor fresh 4) <> 4 /\
  chipcap2_read_raw short_sensor temp_chan IIO_CHAN_INFO_RAW fresh
  = (-5, {| out_val := 7; out_val2 := 8;
            trace := [ev_block_read CHIPCAP2_DATA_FETCH 4] |}).
Proof.
  assert (Hne : br_ret (next_reply short_sensor fresh 4) <> 4)
    by (cbn; discriminate).
  destruct (raw_short_read_eio short_sensor temp_chan fresh 4
              linux_enumerators_distinct (or_intror (conj eq_refl eq_refl))
              Hne) as (Hc & Hv & Hv2 & Htr).
  refine (conj linux_enumerators_distinct (conj eq_refl (conj Hne _))).
  destruct (chipcap2_read_raw short_sensor temp_chan IIO_CHAN_INFO_RAW fresh)
    as [code [v v2 tr]].
  cbn in Hc, Hv, Hv2, Htr. now subst.
Defined.

Lemma scale_constant_witness :
  enumerators_distinct /\
  chipcap2_read_raw sensor humidity_chan IIO_CHAN_INFO_SCALE fresh
  = (10, {| out_val := 100; out_val2 := 16384; trace := [] |}) /\
  chipcap2_read_raw sensor temp_chan IIO_CHAN_INFO_SCALE fresh
  = (10, {| out_val := 100; out_val2 := 9929; trace := [] |}).
Proof.
  refine (conj linux_enumerators_distinct (conj _ _)).
  - exact (proj1 (scale_constant sensor humidity_chan fresh
                    linux_enumerators_distinct) eq_refl).
  - exact (proj2 (scale_constant sensor temp_chan fresh
                    linux_enumerators_distinct) eq_refl).
Defined.

Lemma temp_offset_constant_witness :
  enumerators_distinct /\
  type temp_chan = IIO_TEMP /\
  chipcap2_read_raw sensor temp_chan IIO_CHAN_INFO_OFFSET fresh
  = (1, {| out_val := -40; out_val2 := 8; trace := [] |}) /\
  chipcap2_read_raw short_sensor temp_chan IIO_CHAN_INFO_OFFSET
    (snd (chipcap2_read_raw sensor temp_chan IIO_CHAN_INFO_OFFSET fresh))
  = chipcap2_read_raw sensor temp_chan IIO_CHAN_INFO_OFFSET fresh.
Proof.
  refine (conj linux_enumerators_distinct (conj eq_refl (conj _ _))).
  - exact (proj1 (temp_offset_constant sensor short_sensor temp_chan temp_chan
                    fresh linux_enumerators_distinct eq_refl eq_refl)).
  - exact (proj2 (temp_offset_constant sensor short_sensor temp_chan temp_chan
                    fresh linux_enumerators_distinct eq_refl eq_refl)).
Defined.

Lemma unknown_aspect_einval_witness :
  IIO_CHAN_INFO_PROCESSED <> IIO_CHAN_INFO_RAW /\
  IIO_CHAN_INFO_PROCESSED <> IIO_CHAN_INFO_SCALE /\
  IIO_CHAN_INFO_PROCESSED <> IIO_CHAN_INFO_OFFSET /\
  chipcap2_read_raw sensor humidity_chan IIO_CHAN_INFO_PROCESSED fresh
  = (-22, fresh).
Proof.
  assert (H0 : IIO_CHAN_INFO_PROCESSED <> IIO_CHAN_INFO_RAW)
    by (cbn; discriminate).
  assert (H2 : IIO_CHAN_INFO_PROCESSED <> IIO_CHAN_INFO_SCALE)
    by (cbn; discriminate).
  assert (H3 : IIO_CHAN_INFO_PROCESSED <> IIO_CHAN_INFO_OFFSET)
    by (cbn; discriminate).
  refine (conj H0 (conj H2 (conj H3 _))).
  exact (unknown_aspect_einval sensor humidity_chan IIO_CHAN_INFO_PROCESSED
           fresh H0 H2 H3).
Defined.

(** C3, as the specification has it, fails: a Raw request on a pressure
    channel returns [IIO_VAL_INT], which is not [-EINVAL]. *)
Lemma raw_unknown_quantity_counterexample :
  type pressure_chan <> IIO_HUMIDITYRELATIVE /\
  type pressure_chan <> IIO_TEMP /\
  fst (chipcap2_read_raw sensor pressure_chan IIO_CHAN_INFO_RAW fresh)
    = IIO_VAL_INT /\
  fst (chipcap2_read_raw sensor pressure_chan IIO_CHAN_INFO_RAW fresh)
    <> - EINVAL.
Proof. cbn. repeat split; discriminate. Qed.

Lemma raw_unknown_quantity_witness :
  type pressure_chan <> IIO_HUMIDITYRELATIVE /\
  type pressure_chan <> IIO_TEMP /\
  chipcap2_read_raw sensor pressure_chan IIO_CHAN_INFO_RAW fresh = (1, fresh) /\
  ~ In pressure_chan chipcap2_channels.
Proof.
  assert (Hh : type pressure_chan <> IIO_HUMIDITYRELATIVE)
    by (cbn; discriminate).
  assert (Ht : type pressure_chan <> IIO_TEMP) by (cbn; discriminate).
  destruct (raw_unknown_quantity sensor pressure_chan fresh Hh Ht) as (Hr & Hn).
  exact (conj Hh (conj Ht (conj Hr Hn))).
Defined.

Lemma probe_unsupported_transport_witness :
  Z.land smbus_func (functionality (adapter write_only_client))
    <> smbus_func /\
  chipcap2_probe {| alloc_ok := true; register_ret := 0 |}
                 write_only_client fresh
  = (-95, {| out_val := 7; out_val2 := 8;
             trace := [ev_check_functionality smbus_func] |}).
Proof.
  assert (Hlack : Z.land smbus_func
                          (functionality (adapter write_only_client))
                  <> smbus_func) by (cbn; discriminate).
  split; [exact Hlack |].
  exact (proj1 (probe_unsupported_transport
                  {| alloc_ok := true; register_ret := 0 |}
                  write_only_client fresh Hlack)).
Defined.

Lemma linux_return_codes_signed : return_codes_signed.
Proof. unfold return_codes_signed; cbn; lia. Defined.

Lemma linux_info_enumerators_nonneg : info_enumerators_nonneg.
Proof. unfold info_enumerators_nonneg; cbn; lia. Defined.

Lemma sample_reply_stale_u8 : Forall u8 sample_reply_stale.
Proof. repeat constructor; unfold u8; lia. Defined.

Lemma sample_reply_low_bits_u8 : Forall u8 sample_reply_low_bits.
Proof. repeat constructor; unfold u8; lia. Defined.

Lemma full_scale_reply_u8 : Forall u8 full_scale_reply.
Proof. repeat constructor; unfold u8; lia. Defined.

Lemma success_without_write_witness :
  enumerators_distinct /\
  type humidity_chan <> IIO_TEMP /\
  chipcap2_read_raw sensor humidity_chan IIO_CHAN_INFO_OFFSET fresh
  = (1, fresh) /\
  type pressure_chan <> IIO_HUMIDITYRELATIVE /\
  type pressure_chan <> IIO_TEMP /\
  chipcap2_read_raw sensor pressure_chan IIO_CHAN_INFO_SCALE fresh
  = (10, fresh).
Proof.
  assert (Hh : type humidity_chan <> IIO_TEMP) by (cbn; discriminate).
  assert (Hp : type pressure_chan <> IIO_HUMIDITYRELATIVE)
    by (cbn; discriminate).
  assert (Hp' : type pressure_chan <> IIO_TEMP) by (cbn; discriminate).
  refine (conj linux_enumerators_distinct
            (conj Hh (conj _ (conj Hp (conj Hp' _))))).
  - exact (proj1 (success_without_write sensor humidity_chan fresh
                    linux_enumerators_distinct) Hh).
  - exact (proj2 (success_without_write sensor pressure_chan fresh
                    linux_enumerators_distinct) Hp Hp').
Defined.

Lemma channels_offer_witness :
  enumerators_distinct /\
  info_enumerators_nonneg /\
  In temp_chan chipcap2_channels /\
  0 <= IIO_CHAN_INFO_OFFSET /\
  (offered temp_chan IIO_CHAN_INFO_OFFSET = true <->
   IIO_CHAN_INFO_OFFSET = IIO_CHAN_INFO_RAW \/
   IIO_CHAN_INFO_OFFSET = IIO_CHAN_INFO_SCALE \/
   (IIO_CHAN_INFO_OFFSET = IIO_CHAN_INFO_OFFSET /\ type temp_chan = IIO_TEMP)).
Proof.
  assert (Hin : In temp_chan chipcap2_channels) by (cbn; auto).
  assert (Hm : 0 <= IIO_CHAN_INFO_OFFSET) by (cbn; lia).
  refine (conj linux_enumerators_distinct
            (conj linux_info_enumerators_nonneg (conj Hin (conj Hm _)))).
  exact (channels_offer temp_chan IIO_CHAN_INFO_OFFSET
           linux_enumerators_distinct linux_info_enumerators_nonneg Hin Hm).
Defined.

Lemma offered_request_defines_val_witness :
  enumerators_distinct /\
  In humidity_chan chipcap2_channels /\
  0 <= IIO_CHAN_INFO_RAW /\
  offered humidity_chan IIO_CHAN_INFO_RAW = true /\
  fst (chipcap2_read_raw sensor humidity_chan IIO_CHAN_INFO_RAW fresh)
  = fst (chipcap2_read_raw sensor humidity_chan IIO_CHAN_INFO_RAW
           (with_cells 0 0 fresh)).
Proof.
  assert (Hin : In humidity_chan chipcap2_channels) by (cbn; auto).
  assert (Hm : 0 <= IIO_CHAN_INFO_RAW) by (cbn; lia).
  refine (conj linux_enumerators_distinct (conj Hin (conj Hm (conj eq_refl _)))).
  exact (proj1 (offered_request_defines_val sensor humidity_chan
                  IIO_CHAN_INFO_RAW fresh 0 0
                  linux_enumerators_distinct Hin Hm eq_refl)).
Defined.

Lemma negative_return_writes_nothing_witness :
  return_codes_signed /\
  fst (chipcap2_read_raw short_sensor temp_chan IIO_CHAN_INFO_RAW fresh) < 0 /\
  out_val (snd (chipcap2_read_raw short_sensor temp_chan IIO_CHAN_INFO_RAW
                  fresh)) = 7 /\
  out_val2 (snd (chipcap2_read_raw short_sensor temp_chan IIO_CHAN_INFO_RAW
                   fresh)) = 8.
Proof.
  assert (Hneg : fst (chipcap2_read_raw short_sensor temp_chan
                        IIO_CHAN_INFO_RAW fresh) < 0) by reflexivity.
  refine (conj linux_return_codes_signed (conj Hneg _)).
  exact (proj2 (negative_return_writes_nothing short_sensor temp_chan
                  IIO_CHAN_INFO_RAW fresh linux_return_codes_signed Hneg)).
Defined.

Lemma val2_written_only_by_scale_witness :
  IIO_CHAN_INFO_RAW <> IIO_CHAN_INFO_SCALE /\
  out_val2 (snd (chipcap2_read_raw sensor temp_chan IIO_CHAN_INFO_RAW fresh))
  = 8.
Proof.
  assert (Hne : IIO_CHAN_INFO_RAW <> IIO_CHAN_INFO_SCALE)
    by (cbn; discriminate).
  refine (conj Hne _).
  exact (val2_written_only_by_scale sensor temp_chan IIO_CHAN_INFO_RAW fresh
           Hne).
Defined.

Lemma raw_reads_not_cached_witness :
  type humidity_chan = IIO_HUMIDITYRELATIVE /\
  smbus_xfer (adapter (iio_priv changing_sensor)) 0 CHIPCAP2_DATA_FETCH 2
  = {| br_ret := 2; br_buf := sample_reply |} /\
  smbus_xfer (adapter (iio_priv changing_sensor)) 1 CHIPCAP2_DATA_FETCH 2
  = {| br_ret := 2; br_buf := full_scale_reply |} /\
  out_val (snd (chipcap2_read_raw changing_sensor humidity_chan
                  IIO_CHAN_INFO_RAW fresh)) = 4660 /\
  out_val (snd (chipcap2_read_raw changing_sensor humidity_chan
                  IIO_CHAN_INFO_RAW
                  (snd (chipcap2_read_raw changing_sensor humidity_chan
                          IIO_CHAN_INFO_RAW fresh)))) = 16383.
Proof.
  destruct (raw_reads_not_cached changing_sensor humidity_chan fresh
              sample_reply full_scale_reply eq_refl eq_refl eq_refl)
    as (H1 & H2 & _).
  exact (conj eq_refl (conj eq_refl (conj eq_refl (conj H1 H2)))).
Defined.

Lemma humidity_raw_big_endian_witness :
  type humidity_chan = IIO_HUMIDITYRELATIVE /\
  next_reply stale_sensor fresh 2
  = {| br_ret := 2; br_buf := sample_reply_stale |} /\
  Forall u8 sample_reply_stale /\
  out_val (snd (chipcap2_read_raw stale_sensor humidity_chan
                  IIO_CHAN_INFO_RAW fresh))
  = (0xD2 * 256 + 0x34) mod 16384.
Proof.
  refine (conj eq_refl (conj eq_refl (conj sample_reply_stale_u8 _))).
  exact (humidity_raw_big_endian stale_sensor humidity_chan fresh
           sample_reply_stale eq_refl eq_refl sample_reply_stale_u8).
Defined.

Lemma temperature_raw_big_endian_witness :
  enumerators_distinct /\
  type temp_chan = IIO_TEMP /\
  next_reply sensor fresh 4 = {| br_ret := 4; br_buf := sample_reply |} /\
  Forall u8 sample_reply /\
  out_val (snd (chipcap2_read_raw sensor temp_chan IIO_CHAN_INFO_RAW fresh))
  = Z.shiftr 0x5008 2.
Proof.
  refine (conj linux_enumerators_distinct
            (conj eq_refl (conj eq_refl (conj sample_reply_u8 _)))).
  exact (temperature_raw_big_endian sensor temp_chan fresh sample_reply
           linux_enumerators_distinct eq_refl eq_refl sample_reply_u8).
Defined.

Lemma temperature_raw_ignores_low_bits_witness :
  enumerators_distinct /\
  type temp_chan = IIO_TEMP /\
  next_reply sensor fresh 4 = {| br_ret := 4; br_buf := sample_reply |} /\
  next_reply low_bits_sensor fresh 4
  = {| br_ret := 4; br_buf := sample_reply_low_bits |} /\
  Forall u8 sample_reply /\ Forall u8 sample_reply_low_bits /\
  nth 2 sample_reply 0 = nth 2 sample_reply_low_bits 0 /\
  low_bits_only (nth 3 sample_reply 0) (nth 3 sample_reply_low_bits 0) = true /\
  out_val (snd (chipcap2_read_raw sensor temp_chan IIO_CHAN_INFO_RAW fresh))
  = out_val (snd (chipcap2_read_raw low_bits_sensor temp_chan
                    IIO_CHAN_INFO_RAW fresh)).
Proof.
  refine (conj linux_enumerators_distinct
            (conj eq_refl (conj eq_refl (conj eq_refl
               (conj sample_reply_u8 (conj sample_reply_low_bits_u8
                  (conj eq_refl (conj eq_refl _)))))))).
  exact (temperature_raw_ignores_low_bits sensor low_bits_sensor temp_chan
           fresh fresh sample_reply sample_reply_low_bits
           linux_enumerators_distinct eq_refl eq_refl eq_refl
           sample_reply_u8 sample_reply_low_bits_u8 eq_refl eq_refl).
Defined.

Lemma humidity_raw_fields_witness :
  type humidity_chan = IIO_HUMIDITYRELATIVE /\
  next_reply stale_sensor fresh 2
  = {| br_ret := 2; br_buf := sample_reply_stale |} /\
  Forall u8 sample_reply_stale /\
  out_val (snd (chipcap2_read_raw stale_sensor humidity_chan
                  IIO_CHAN_INFO_RAW fresh)) / 256 = 0x12 /\
  out_val (snd (chipcap2_read_raw stale_sensor humidity_chan
                  IIO_CHAN_INFO_RAW fresh)) mod 256 = 0x34.
Proof.
  refine (conj eq_refl (conj eq_refl (conj sample_reply_stale_u8 _))).
  exact (humidity_raw_fields stale_sensor humidity_chan fresh
           sample_reply_stale eq_refl eq_refl sample_reply_stale_u8).
Defined.

Lemma temperature_raw_fields_witness :
  enumerators_distinct /\
  type temp_chan = IIO_TEMP /\
  next_reply low_bits_sensor fresh 4
  = {| br_ret := 4; br_buf := sample_reply_low_bits |} /\
  Forall u8 sample_reply_low_bits /\
  out_val (snd (chipcap2_read_raw low_bits_sensor temp_chan
                  IIO_CHAN_INFO_RAW fresh)) / 64 = 0x50 /\
  out_val (snd (chipcap2_read_raw low_bits_sensor temp_chan
                  IIO_CHAN_INFO_RAW fresh)) mod 64 = 2.
Proof.
  refine (conj linux_enumerators_distinct
            (conj eq_refl (conj eq_refl (conj sample_reply_low_bits_u8 _)))).
  exact (temperature_raw_fields low_bits_sensor temp_chan fresh
           sample_reply_low_bits linux_enumerators_distinct eq_refl eq_refl
           sample_reply_low_bits_u8).
Defined.

Lemma every_code_reachable_witness :
  enumerators_distinct /\
  0 <= 4660 <= 16383 /\
  exists buf,
    Forall u8 buf /\
    forall indio_dev chan s,
      (type chan = IIO_HUMIDITYRELATIVE ->
       next_reply indio_dev s 2 = {| br_ret := 2; br_buf := buf |} ->
       chipcap2_read_raw indio_dev chan IIO_CHAN_INFO_RAW s
       = (IIO_VAL_INT,
          with_cells 4660 (out_val2 s)
            (after_call (ev_block_read CHIPCAP2_DATA_FETCH 2) s))) /\
      (type chan = IIO_TEMP ->
       next_reply indio_dev s 4 = {| br_ret := 4; br_buf := buf |} ->
       chipcap2_read_raw indio_dev chan IIO_CHAN_INFO_RAW s
       = (IIO_VAL_INT,
          with_cells 4660 (out_val2 s)
            (after_call (ev_block_read CHIPCAP2_DATA_FETCH 4) s))).
Proof.
  assert (Hv : 0 <= 4660 <= 16383) by lia.
  refine (conj linux_enumerators_distinct (conj Hv _)).
  exact (every_code_reachable 4660 linux_enumerators_distinct Hv).
Defined.

Lemma humidity_percent_range_witness :
  enumerators_distinct /\
  type humidity_chan = IIO_HUMIDITYRELATIVE /\
  next_reply sensor fresh 2 = {| br_ret := 2; br_buf := sample_reply |} /\
  Forall u8 sample_reply /\
  0 <= 4660 * 100 < 100 * 16384.
Proof.
  refine (conj linux_enumerators_distinct
            (conj eq_refl (conj eq_refl (conj sample_reply_u8 _)))).
  exact (proj2 (humidity_percent_range sensor humidity_chan fresh sample_reply
                  linux_enumerators_distinct eq_refl eq_refl sample_reply_u8)).
Defined.

Lemma temperature_celsius_range_witness :
  enumerators_distinct /\
  type temp_chan = IIO_TEMP /\
  next_reply sensor fresh 4 = {| br_ret := 4; br_buf := sample_reply |} /\
  Forall u8 sample_reply /\
  -40 * 9929 <= 5122 * 100 + -40 * 9929 <= 125 * 9929 + 15.
Proof.
  refine (conj linux_enumerators_distinct
            (conj eq_refl (conj eq_refl (conj sample_reply_u8 _)))).
  exact (proj2 (temperature_celsius_range sensor temp_chan fresh sample_reply
                  linux_enumerators_distinct eq_refl eq_refl sample_reply_u8)).
Defined.

Lemma probe_enomem_witness :
  capable capable_client = true /\
  alloc_ok core_nomem = false /\
  chipcap2_probe core_nomem capable_client fresh
  = (-12, {| out_val := 7; out_val2 := 8;
             trace := [ev_device_alloc; ev_check_functionality smbus_func] |}).
Proof.
  assert (Hcap : capable capable_client = true) by reflexivity.
  refine (conj Hcap (conj eq_refl _)).
  exact (proj1 (probe_enomem core_nomem capable_client fresh Hcap eq_refl)).
Defined.

Lemma probe_registers_device_witness :
  capable capable_client = true /\
  alloc_ok core_ok = true /\
  exists indio_dev,
    chipcap2_probe core_ok capable_client fresh
    = (0, {| out_val := 7; out_val2 := 8;
             trace := [ev_device_register indio_dev; ev_set_clientdata;
                       ev_device_alloc;
                       ev_check_functionality smbus_func] |}) /\
    iio_priv indio_dev = capable_client /\
    channels indio_dev = chipcap2_channels.
Proof.
  assert (Hcap : capable capable_client = true) by reflexivity.
  refine (conj Hcap (conj eq_refl _)).
  destruct (probe_registers_device core_ok capable_client fresh
              Hcap eq_refl) as (dev & Hrun & Hpriv & _ & _ & Hch & _).
  exists dev. exact (conj Hrun (conj Hpriv Hch)).
Defined.

End Linux.
